(** * ts_utils: stationarity transforms, forecast bias and the darts metrics adapter

    A shallow embedding of [src/utils/ts_utils.py]:

    - [make_stationary] (lines 5-24),
    - [forecast_bias] (lines 32-93),
    - [darts_metrics_adapter] (lines 95-143).

    Numbers.  A numpy float64 is an IEEE 754 binary64 value, [spec_float]
    at precision 53 and maximal exponent 1024: signed zeros, finite values
    with mantissa and exponent, the two infinities and NaN.  Addition,
    subtraction, multiplication and division are the IEEE operations,
    rounded to nearest even, with their overflow, underflow and special
    values.  What IEEE 754 does not fix is left open: the value of the C
    library's [log] and [exp] at a finite argument, and the order in which
    [np.sum] adds the entries of an array, are parameters.

    Python objects.  The three functions branch on the run-time class of
    their arguments; [pyobj] is the tagged union of the classes they
    inspect, and [type_of] is Python's [type(...)].

    Collaborators.  Functions imported from elsewhere ([_detrend],
    [is_datetime_dtypes], darts' [_get_values_or_raise] and [TimeSeries]
    constructors, pandas' [squeeze], the injected metric function) are
    parameters of the sections below; each may raise where the library
    function may. *)

From Stdlib Require Import SpecFloat.
From stdpp Require Import base option strings list gmap.

Local Open Scope string_scope.

(** ** Exceptions and results *)

(** The exceptions the module raises itself, with the message of the raise
    site, and [Raised] for whatever a collaborator raises. *)
Inductive exn :=
  | AssertionError (msg : string)
  | ValueError (msg : string)
  | AttributeError (msg : string)
  | Raised (what : string).

Inductive result (A : Type) :=
  | Ok (a : A)
  | Raise (e : exn).
Arguments Ok {A} a.
Arguments Raise {A} e.

#[global] Instance result_ret : MRet result := fun _ a => Ok a.
#[global] Instance result_bind : MBind result := fun _ _ f r =>
  match r with
  | Ok a => f a
  | Raise e => Raise e
  end.

(** The error kinds of the specification, as a reading of the exceptions
    raised in the source: an [assert] on the argument classes is a type
    mismatch, and the three [ValueError] sites are told apart by message. *)
Inductive error_kind :=
  | TypeMismatch
  | UnsupportedShape
  | MissingDatetimeIndex
  | NormalizationError
  | OtherError.

Definition msg_same_type_pred : string :=
  "actual_series and pred_series should be of same type.".
Definition msg_same_type_insample : string :=
  "actual_series and insample should be of same type.".
Definition msg_dataframes : string :=
  "Dataframes not supported in the adapter. Use either Series with datetime index or numpy arrays".
Definition msg_mase : string :=
  "MASE needs pandas Series with datetime index as inputs".

Definition kind_of (e : exn) : error_kind :=
  match e with
  | AssertionError _ => TypeMismatch
  | ValueError msg =>
      if String.eqb msg msg_dataframes then UnsupportedShape
      else if String.eqb msg msg_mase then MissingDatetimeIndex
      else if String.eqb msg "" then NormalizationError
      else OtherError
  | AttributeError _ => OtherError
  | Raised _ => OtherError
  end.

(** ** Floating-point values *)

Definition prec : Z := 53.
Definition emax : Z := 1024.

Abbreviation float := spec_float.
Abbreviation NaN := S754_nan.
Abbreviation PInf := (S754_infinity false).
Abbreviation NInf := (S754_infinity true).

(** The float64 value of an integer literal: exact up to 2^53 in absolute
    value, rounded to nearest beyond. *)
Definition Fin (z : Z) : float := binary_normalize prec emax z 0 false.

Definition isnan (x : float) : bool :=
  match x with S754_nan => true | _ => false end.

Definition isfinite (x : float) : bool :=
  match x with
  | S754_zero _ | S754_finite _ _ _ => true
  | _ => false
  end.

Definition iszero (x : float) : bool :=
  match x with S754_zero _ => true | _ => false end.

(** float64 arithmetic.  Division by zero, overflow and invalid operations
    give an infinity or NaN; numpy warns and raises nothing. *)
Definition fadd : float -> float -> float := SFadd prec emax.
Definition fsub : float -> float -> float := SFsub prec emax.
Definition fmul : float -> float -> float := SFmul prec emax.
Definition fdiv : float -> float -> float := SFdiv prec emax.

(** One-dimensional arrays. *)
Definition array := list float.

(** Elementwise binary operations on one-dimensional arrays, with numpy's
    broadcasting: the lengths agree, or one operand has length one and is
    repeated; any other pair of shapes raises. *)
Definition msg_broadcast : string := "operands could not be broadcast together".

Definition np_binop (f : float -> float -> float) (a b : array) : result array :=
  if Nat.eqb (length a) (length b) then Ok (zip_with f a b)
  else match a, b with
       | [u], _ => Ok (map (f u) b)
       | _, [v] => Ok (map (fun u => f u v) a)
       | _, _ => Raise (ValueError msg_broadcast)
       end.

Definition np_add := np_binop fadd.
Definition np_multiply := np_binop fmul.
Definition np_divide := np_binop fdiv.

(** Python slices [x[:-1]] and [x[1:]]. *)
Definition all_but_last (x : array) : array := take (length x - 1) x.
Definition from_second (x : array) : array := drop 1 x.


(** ** Python values and keyword dictionaries *)

Inductive pyval :=
  | PyNone
  | PyBool (b : bool)
  | PyInt (z : Z)
  | PyFloat (x : float)
  | PyStr (s : string).

Abbreviation dict := (gmap string pyval).

(** ** make_stationary *)

(** The inverse closure: [partial(inverse_transform, ...)] is a function of
    the one remaining argument [st]. *)
Abbreviation inverse_fn := (array -> result array).

(** What a call of [make_stationary] leaves behind: the caller's
    [detrend_kwargs] dictionary after the call (the function assigns into the
    object it was given), the arguments of every [_detrend] call it made, and
    what it returned ([None] is Python's [None]). *)
Record stationary_run := {
  kwargs_after : dict;
  detrend_calls : list (array * dict);
  returned : result (option (array * inverse_fn))
}.

Section MakeStationary.

(** The C library's [log] and [exp] at the arguments where IEEE 754 leaves
    their value to the implementation: a finite positive argument of [log],
    a finite non-zero argument of [exp]. *)
Variable libm_log : float -> float.
Variable libm_exp : float -> float.

(** [src.decomposition.seasonal._detrend(x, **kwargs)], imported at line 3.
    It receives the keywords unpacked, i.e. a copy, so it cannot change
    the caller's dictionary. *)
Variable _detrend : array -> dict -> result (array * array).

(** [np.log] of one value: minus infinity at a zero of either sign, NaN at
    a negative argument, the argument itself at +inf and NaN. *)
Definition flog (x : float) : float :=
  match x with
  | S754_nan => NaN
  | S754_infinity false => PInf
  | S754_infinity true => NaN
  | S754_zero _ => NInf
  | S754_finite true _ _ => NaN
  | S754_finite false _ _ => libm_log x
  end.

(** [np.exp] of one value: one at a zero of either sign, +0.0 at -inf, the
    argument itself at +inf and NaN. *)
Definition fexp (x : float) : float :=
  match x with
  | S754_nan => NaN
  | S754_infinity false => PInf
  | S754_infinity true => S754_zero false
  | S754_zero _ => Fin 1
  | S754_finite _ _ _ => libm_exp x
  end.

Definition np_log (a : array) : array := map flog a.
Definition np_exp (a : array) : array := map fexp a.

(* lines 16-17 *)
Definition inverse_transform_detrend (st trend : array) : result array :=
  np_add st trend.

(* lines 21-23 *)
Definition inverse_transform_logdiff (st x : array) : result array :=
  let _x := np_exp st in
  np_multiply _x (from_second x).

(* lines 13-24; with no branch taken the function falls off its end and
   returns None.  [detrend_kwargs] is the dictionary object the caller
   passed; when the argument is omitted it is the default [{}] of line 5,
   one object created when the function is defined and shared by all such
   calls, and [kwargs_after] is then the state of that object. *)
Definition make_stationary (x : array) (method : string)
    (detrend_kwargs : dict) : stationary_run :=
  if String.eqb method "detrend" then
    let detrend_kwargs := <["return_trend" := PyBool true]> detrend_kwargs in
    {| kwargs_after := detrend_kwargs;
       detrend_calls := [(x, detrend_kwargs)];
       returned :=
         '(stationary, trend) ← _detrend x detrend_kwargs;
         mret (Some (stationary,
                     fun st => inverse_transform_detrend st trend)) |}
  else if String.eqb method "logdiff" then
    {| kwargs_after := detrend_kwargs;
       detrend_calls := [];
       returned :=
         ratio ← np_divide (all_but_last x) (from_second x);
         let stationary := np_log ratio in
         mret (Some (stationary,
                     fun st => inverse_transform_logdiff st x)) |}
  else
    {| kwargs_after := detrend_kwargs;
       detrend_calls := [];
       returned := mret None |}.



End MakeStationary.

(** Stand-ins to run the examples with.  [flat_detrend] finds no trend: the
    residual is the input and the trend is zero everywhere.  [same_value]
    stands for both [libm_log] and [libm_exp] in examples whose outcome
    does not depend on what the two compute, or only on their undoing each
    other. *)
Definition flat_detrend (x : array) (kwargs : dict) : result (array * array) :=
  Ok (x, map (fun _ => Fin 0) x).

Definition same_value (x : float) : float := x.

(** ** Python objects *)

(** A numpy array: one-dimensional, or the two-dimensional [.values] of a
    data frame. *)
Inductive ndarray :=
  | Arr1 (v : array)
  | Arr2 (rows : list array).

(** The [.index] of a pandas object. *)
Inductive index :=
  | RangeIndex (n : nat)
  | DatetimeIndex (stamps : list Z)
  | LabelIndex (labels : list string).

(** The objects the functions receive or build.  A darts [TimeSeries] is
    recorded by what it was built from: a positional series by its values,
    a time-indexed one by the pandas series. *)
#[warnings="-register-all"]
Inductive pyobj :=
  | NdArray (a : ndarray)
  | PdSeries (idx : index) (vals : array)
  | PdDataFrame (idx : index) (columns : list string) (rows : list array)
  | TimeSeries_from_values (values : pyobj)
  | TimeSeries_from_series (series : pyobj)
  | PyScalar (x : float)
  | PyList (items : list pyobj).

Inductive pytype :=
  | np_ndarray
  | pd_Series
  | pd_DataFrame
  | darts_TimeSeries
  | py_float
  | py_list.

#[global] Instance pytype_eq_dec : EqDecision pytype.
Proof. solve_decision. Defined.

(** [type(o)] *)
Definition type_of (o : pyobj) : pytype :=
  match o with
  | NdArray _ => np_ndarray
  | PdSeries _ _ => pd_Series
  | PdDataFrame _ _ _ => pd_DataFrame
  | TimeSeries_from_values _ => darts_TimeSeries
  | TimeSeries_from_series _ => darts_TimeSeries
  | PyScalar _ => py_float
  | PyList _ => py_list
  end.

(** [type(a) is type(b)] *)
Definition same_type (a b : pyobj) : bool :=
  bool_decide (type_of a = type_of b).

(** [isinstance(o, t)]; none of the classes above derives from another. *)
Definition isinstance (o : pyobj) (t : pytype) : bool :=
  bool_decide (type_of o = t).

(** [o.shape[1]], read only behind the [is_pd_dataframe and ...] guard. *)
Definition shape1 (o : pyobj) : nat :=
  match o with
  | PdDataFrame _ columns _ => length columns
  | _ => 0
  end.

(** [o.index] and [o.values]: pandas objects have them. *)
Definition get_index (o : pyobj) : result index :=
  match o with
  | PdSeries idx _ => Ok idx
  | PdDataFrame idx _ _ => Ok idx
  | _ => Raise (AttributeError "index")
  end.

Definition get_values (o : pyobj) : result pyobj :=
  match o with
  | PdSeries _ vals => Ok (NdArray (Arr1 vals))
  | PdDataFrame _ _ rows => Ok (NdArray (Arr2 rows))
  | _ => Raise (AttributeError "values")
  end.

(** The payload of an object known to be a numpy array. *)
Definition as_ndarray (o : pyobj) : ndarray :=
  match o with
  | NdArray a => a
  | _ => Arr1 []
  end.

(** ** NaN removal *)

(** [np.delete(a, mask)]: the entries whose mask bit is false. *)
Fixpoint np_delete (a : array) (mask : list bool) : array :=
  match a, mask with
  | u :: a', b :: mask' =>
      if b then np_delete a' mask' else u :: np_delete a' mask'
  | _, _ => []
  end.

Definition msg_mask : string :=
  "boolean array argument obj to delete must be one dimensional and match the axis length".

(** Modelled from the spec: darts' [_remove_nan_union], imported at line 27
    and not part of this module.  It removes, pairwise, every position at
    which either sequence holds NaN, so the two results stay aligned.  The
    operands are one-dimensional value sequences of the same length; numpy
    builds one mask for both, and rejects it for any other pair of shapes. *)
Definition _remove_nan_union (array_a array_b : ndarray)
    : result (array * array) :=
  match array_a, array_b with
  | Arr1 a, Arr1 b =>
      if Nat.eqb (length a) (length b) then
        let isnan_mask := zip_with orb (map isnan a) (map isnan b) in
        Ok (np_delete a isnan_mask, np_delete b isnan_mask)
      else Raise (ValueError msg_mask)
  | _, _ => Raise (ValueError msg_mask)
  end.

(** ** The metric call *)

(** The keywords every metric receives (lines 141 and 143). *)
Record metric_kwargs := {
  intersect : bool;
  reduction : array -> float;
  inter_reduction : array -> pyobj;
  n_jobs : Z;
  verbose : bool
}.

(** The two shapes of the forwarded call: with [insample] and [m] (line
    141) or without them (line 143). *)
Inductive metric_call :=
  | call_seasonal (actual_series pred_series : pyobj)
      (insample : option pyobj) (m : option Z) (kw : metric_kwargs)
  | call_plain (actual_series pred_series : pyobj) (kw : metric_kwargs).

(** An injected metric function: its [__name__] and what calling it gives. *)
Record metric := {
  __name__ : string;
  apply : metric_call -> result pyobj
}.

Section Metrics.

(** darts' [_get_values_or_raise(series_a, series_b, intersect)]. *)
Variable _get_values_or_raise : pyobj -> pyobj -> bool -> result (ndarray * ndarray).

(** numpy's [add.reduce] over a non-empty float64 array: the sum of its
    entries in the order and grouping numpy chooses. *)
Variable np_add_reduce : array -> float.

(** pandas' [obj.squeeze()]. *)
Variable squeeze : pyobj -> pyobj.

(** [src.utils.data_utils.is_datetime_dtypes], imported at line 29. *)
Variable is_datetime_dtypes : index -> bool.

(** darts' [TimeSeries.from_values] and [TimeSeries.from_series]; either
    may raise on input it does not accept. *)
Variable from_values : pyobj -> result pyobj.
Variable from_series : pyobj -> result pyobj.

(** [np.sum]: 0.0 for an empty array. *)
Definition np_sum (a : array) : float :=
  match a with
  | [] => S754_zero false
  | _ => np_add_reduce a
  end.

(** *** forecast_bias *)

(* lines 86-89 *)
Definition paired_values (actual_series pred_series : pyobj)
    (intersect : bool) : result (ndarray * ndarray) :=
  if isinstance actual_series np_ndarray then
    Ok (as_ndarray actual_series, as_ndarray pred_series)
  else
    _get_values_or_raise actual_series pred_series intersect.

(* lines 85-93; [reduction], [inter_reduction], [n_jobs] and [verbose] are
   accepted and never read *)
Definition forecast_bias (actual_series pred_series : pyobj)
    (intersect : bool) : result float :=
  if negb (same_type actual_series pred_series) then
    Raise (AssertionError msg_same_type_pred)
  else
    '(y_true, y_pred) ← paired_values actual_series pred_series intersect;
    '(y_true, y_pred) ← _remove_nan_union y_true y_pred;
    let y_true_sum := np_sum y_true in
    let y_pred_sum := np_sum y_pred in
    Ok (fmul (fdiv (fsub y_true_sum y_pred_sum) y_true_sum) (Fin 100)).

(** *** darts_metrics_adapter *)

(* [is_datetime_dtypes(o.index)] *)
Definition has_datetime_index (o : pyobj) : result bool :=
  idx ← get_index o; Ok (is_datetime_dtypes idx).

(* Python's [a and b]: [b] is evaluated only when [a] is true *)
Definition py_and (a : bool) (b : result bool) : result bool :=
  if a then b else Ok false.

(* lines 119-124 *)
Definition datetime_index_check (is_pd_series : bool)
    (actual_series pred_series : pyobj) (insample : option pyobj)
    : result bool :=
  if is_pd_series then
    d ← has_datetime_index actual_series;
    is_datetime_index ← py_and d (has_datetime_index pred_series);
    match insample with
    | Some ins => py_and is_datetime_index (has_datetime_index ins)
    | None => Ok is_datetime_index
    end
  else Ok false.

(* [TimeSeries.from_values(x.values if is_pd_series else x)] *)
Definition positional (is_pd_series : bool) (x : pyobj) : result pyobj :=
  v ← (if is_pd_series then get_values x else Ok x);
  from_values v.

(* lines 129-139, evaluated in the order of the source: actual, then
   predicted, then the in-sample series if there is one *)
Definition coerce (is_nd_array is_pd_series is_datetime_index : bool)
    (actual_series pred_series : pyobj) (insample : option pyobj)
    : result (pyobj * pyobj * option pyobj) :=
  if is_nd_array || (is_pd_series && negb is_datetime_index) then
    ta ← positional is_pd_series actual_series;
    tp ← positional is_pd_series pred_series;
    match insample with
    | Some ins =>
        ti ← positional is_pd_series ins;
        Ok (ta, tp, Some ti)
    | None => Ok (ta, tp, None)
    end
  else if is_pd_series && is_datetime_index then
    ta ← from_series actual_series;
    tp ← from_series pred_series;
    match insample with
    | Some ins =>
        ti ← from_series ins;
        Ok (ta, tp, Some ti)
    | None => Ok (ta, tp, None)
    end
  else Raise (ValueError "").

(* lines 119-143: what follows the data-frame test *)
Definition adapter_after_squeeze (metric_func : metric)
    (is_nd_array is_pd_series : bool)
    (actual_series pred_series : pyobj) (insample : option pyobj)
    (m : option Z) (kw : metric_kwargs) : result pyobj :=
  is_datetime_index ←
    datetime_index_check is_pd_series actual_series pred_series insample;
  if String.eqb (__name__ metric_func) "mase" && negb is_datetime_index then
    Raise (ValueError msg_mase)
  else
    '(actual_series, pred_series, insample) ←
      coerce is_nd_array is_pd_series is_datetime_index
        actual_series pred_series insample;
    if String.eqb (__name__ metric_func) "mase" then
      apply metric_func (call_seasonal actual_series pred_series insample m kw)
    else
      apply metric_func (call_plain actual_series pred_series kw).

(* lines 105-118, then the rest; the [else] of line 117 belongs to the
   test of line 111 *)
Definition darts_metrics_adapter (metric_func : metric)
    (actual_series pred_series : pyobj) (insample : option pyobj)
    (m : option Z) (kw : metric_kwargs) : result pyobj :=
  if negb (same_type actual_series pred_series) then
    Raise (AssertionError msg_same_type_pred)
  else if match insample with
          | Some ins => negb (same_type actual_series ins)
          | None => false
          end then
    Raise (AssertionError msg_same_type_insample)
  else
    let is_nd_array := isinstance actual_series np_ndarray in
    let is_pd_series := isinstance actual_series pd_Series in
    let is_pd_dataframe := isinstance actual_series pd_DataFrame in
    if is_pd_dataframe && Nat.eqb (shape1 actual_series) 1 then
      let actual_series := squeeze actual_series in
      let pred_series := squeeze pred_series in
      let insample := squeeze <$> insample in
      let is_pd_series := true in
      adapter_after_squeeze metric_func is_nd_array is_pd_series
        actual_series pred_series insample m kw
    else
      Raise (ValueError msg_dataframes).

End Metrics.

(** The pairs of the specification's wording: positions of [a] and [p]
    taken together, without those at which either value is NaN. *)
Definition retained_pairs (a p : array) : list (float * float) :=
  List.filter (fun q => negb (isnan q.1 || isnan q.2)) (zip a p).

(** Collaborators to run the examples with: a value extractor that is never
    reached on arrays, a sum that adds from left to right, the index test
    that recognises a [DatetimeIndex], constructors that accept everything,
    one that rejects everything, and two metrics that only report which
    call they received. *)
Definition no_series_values (a b : pyobj) (intersect : bool)
    : result (ndarray * ndarray) :=
  Raise (Raised "_get_values_or_raise").

Definition sum_left_to_right (a : array) : float :=
  fold_left fadd a (S754_zero false).

Definition keep_shape (o : pyobj) : pyobj := o.

Definition datetime_only (idx : index) : bool :=
  match idx with DatetimeIndex _ => true | _ => false end.

Definition build_from_values (v : pyobj) : result pyobj :=
  Ok (TimeSeries_from_values v).

Definition build_from_series (s : pyobj) : result pyobj :=
  Ok (TimeSeries_from_series s).

Definition refuse_series (s : pyobj) : result pyobj :=
  Raise (ValueError "Could not correctly fill missing dates").

Definition echo_call (c : metric_call) : result pyobj :=
  match c with
  | call_seasonal a _ _ _ _ => Ok a
  | call_plain a _ _ => Ok a
  end.

Definition mae_stub : metric := {| __name__ := "mae"; apply := echo_call |}.
Definition mase_stub : metric := {| __name__ := "mase"; apply := echo_call |}.

Definition default_kwargs : metric_kwargs :=
  {| intersect := true;
     reduction := fun a => Fin 0;
     inter_reduction := fun a => NdArray (Arr1 a);
     n_jobs := 1;
     verbose := false |}.

(** A [squeeze] to run the data-frame examples with, after pandas on
    one-column frames: a frame of a single cell becomes that scalar, any
    other frame of one column becomes the series of that column under the
    same index, and any other object is returned as it is. *)
Definition squeeze_column (o : pyobj) : pyobj :=
  match o with
  | PdDataFrame idx [_] [[v]] => PyScalar v
  | PdDataFrame idx [_] rows => PdSeries idx (concat rows)
  | _ => o
  end.

(** One-column frames for the examples, dated or numbered. *)
Definition dated_frame (stamps : list Z) (vals : array) : pyobj :=
  PdDataFrame (DatetimeIndex stamps) ["y"] (map (fun v => [v]) vals).

Definition numbered_frame (vals : array) : pyobj :=
  PdDataFrame (RangeIndex (length vals)) ["y"] (map (fun v => [v]) vals).

(** * Properties *)

(** ** Array facts *)

Lemma np_binop_same_length f (a b : array) :
  length a = length b → np_binop f a b = Ok (zip_with f a b).
Proof. intros H. unfold np_binop. rewrite H, Nat.eqb_refl. reflexivity. Qed.

Lemma length_all_but_last (x : array) :
  length (all_but_last x) = length x - 1.
Proof. unfold all_but_last. rewrite length_take. lia. Qed.

Lemma length_from_second (x : array) :
  length (from_second x) = length x - 1.
Proof. unfold from_second. rewrite length_drop. lia. Qed.

Lemma lookup_map {A B} (f : A → B) (l : list A) (i : nat) :
  map f l !! i = f <$> l !! i.
Proof. revert i. induction l as [|a l IH]; intros [|i]; cbn; auto. Qed.

(** The slices [x[:-1]] and [x[1:]] pair every entry with its successor. *)
Lemma successor_lookup (x : array) (i : nat) (u v : float) :
  x !! i = Some u → x !! S i = Some v →
  all_but_last x !! i = Some u ∧ from_second x !! i = Some v.
Proof.
  intros Hu Hv. unfold all_but_last, from_second, array in *.
  apply lookup_lt_Some in Hv as Hlt.
  rewrite lookup_take_lt by lia. rewrite lookup_drop. auto.
Qed.


(** ** make_stationary *)

Lemma make_stationary_detrend lg ex d x kw :
  make_stationary lg ex d x "detrend" kw =
  {| kwargs_after := <["return_trend" := PyBool true]> kw;
     detrend_calls := [(x, <["return_trend" := PyBool true]> kw)];
     returned :=
       '(stationary, trend) ← d x (<["return_trend" := PyBool true]> kw);
       mret (Some (stationary,
                   fun st => inverse_transform_detrend st trend)) |}.
Proof. reflexivity. Qed.

Lemma make_stationary_logdiff lg ex d x kw :
  make_stationary lg ex d x "logdiff" kw =
  {| kwargs_after := kw;
     detrend_calls := [];
     returned :=
       Ok (Some (np_log lg (zip_with fdiv (all_but_last x) (from_second x)),
                 fun st => inverse_transform_logdiff ex st x)) |}.
Proof.
  unfold make_stationary. cbn [String.eqb Ascii.eqb Bool.eqb andb].
  unfold np_divide.
  rewrite np_binop_same_length
    by (rewrite length_all_but_last, length_from_second; reflexivity).
  reflexivity.
Qed.

Lemma make_stationary_other lg ex d x method kw :
  method ≠ "detrend" → method ≠ "logdiff" →
  make_stationary lg ex d x method kw =
  {| kwargs_after := kw; detrend_calls := []; returned := Ok None |}.
Proof.
  intros H1 H2. unfold make_stationary.
  apply String.eqb_neq in H1, H2. rewrite H1, H2. reflexivity.
Qed.

Lemma length_logdiff lg (x : array) :
  length (np_log lg (zip_with fdiv (all_but_last x) (from_second x)))
  = length x - 1.
Proof.
  unfold np_log. rewrite length_map, length_zip_with,
    length_all_but_last, length_from_second. lia.
Qed.

(** The "logdiff" inverse on an argument of the length of [x[1:]]. *)
Lemma inverse_logdiff_same_length ex (f x : array) :
  length f = length x - 1 →
  inverse_transform_logdiff ex f x
  = Ok (zip_with fmul (np_exp ex f) (from_second x)).
Proof.
  intros Hlen. unfold inverse_transform_logdiff, np_multiply.
  apply np_binop_same_length. unfold np_exp.
  rewrite length_map, length_from_second. exact Hlen.
Qed.

Lemma length_inverse_logdiff ex (f x : array) :
  length f = length x - 1 →
  length (zip_with fmul (np_exp ex f) (from_second x)) = length x - 1.
Proof.
  intros Hlen. unfold np_exp.
  rewrite length_zip_with, length_map, length_from_second. lia.
Qed.



(** C4, as stated, fails: with the default method the call writes the key
    [return_trend] into the dictionary the caller passed, so an empty
    dictionary is no longer empty afterwards. *)
Lemma make_stationary_mutates_kwargs :
  kwargs_after (make_stationary same_value same_value flat_detrend
                  [Fin 1; Fin 2] "detrend" ∅) ≠ ∅.
Proof.
  rewrite make_stationary_detrend. cbn [kwargs_after].
  intros H. apply (f_equal (fun d : dict => d !! "return_trend")) in H.
  rewrite lookup_insert_eq, lookup_empty in H. discriminate.
Qed.

(** C4, amended: the only effect on the caller's dictionary is the
    assignment of line 14.  With method "detrend" the dictionary after the
    call is the one passed with [return_trend] set to True; with any other
    method it is the one passed; and in every case every other key keeps
    its value (or its absence). *)
Theorem make_stationary_kwargs_frame lg ex d (x : array) (method : string)
    (kw : dict) :
  kwargs_after (make_stationary lg ex d x method kw)
  = (if String.eqb method "detrend"
     then <["return_trend" := PyBool true]> kw else kw)
  ∧ ∀ k, k ≠ "return_trend" →
      kwargs_after (make_stationary lg ex d x method kw) !! k = kw !! k.
Proof.
  assert (E : kwargs_after (make_stationary lg ex d x method kw)
              = if String.eqb method "detrend"
                then <["return_trend" := PyBool true]> kw else kw).
  { unfold make_stationary.
    destruct (String.eqb method "detrend"); [reflexivity|].
    destruct (String.eqb method "logdiff"); reflexivity. }
  split; [exact E|].
  intros k Hk. rewrite E. destruct (String.eqb method "detrend"); [|reflexivity].
  apply lookup_insert_ne. congruence.
Qed.

(** C5: with method "detrend", [_detrend] is called exactly once, on [x]
    and on keywords in which [return_trend] is True whatever the caller
    supplied for it; every other keyword is passed as supplied; and what the
    function returns is built from the result of that call. *)
Theorem make_stationary_forces_return_trend lg ex d (x : array) (kw : dict) :
  ∃ passed : dict,
    detrend_calls (make_stationary lg ex d x "detrend" kw) = [(x, passed)]
    ∧ passed !! "return_trend" = Some (PyBool true)
    ∧ (∀ k, k ≠ "return_trend" → passed !! k = kw !! k)
    ∧ returned (make_stationary lg ex d x "detrend" kw)
      = ('(stationary, trend) ← d x passed;
         mret (Some (stationary,
                     fun st => inverse_transform_detrend st trend))).
Proof.
  exists (<["return_trend" := PyBool true]> kw).
  rewrite make_stationary_detrend. cbn [detrend_calls returned].
  split; [reflexivity|]. split; [apply lookup_insert_eq|].
  split; [|reflexivity].
  intros k Hk. apply lookup_insert_ne. congruence.
Qed.

(** The caller's own value for [return_trend] is overridden. *)
Example make_stationary_overrides_false :
  detrend_calls
    (make_stationary same_value same_value flat_detrend [Fin 1]
       "detrend" {["return_trend" := PyBool false]})
  = [([Fin 1], {["return_trend" := PyBool true]})].
Proof.
  rewrite make_stationary_detrend. cbn [detrend_calls].
  repeat f_equal.
Qed.

(** C6, as stated, fails: an unknown method raises nothing. *)
Lemma make_stationary_unknown_method_no_error :
  ¬ ∃ e, returned (make_stationary same_value same_value flat_detrend
                     [Fin 1; Fin 2] "diff" ∅)
         = Raise e.
Proof. intros [e H]. vm_compute in H. discriminate. Qed.

(** C6, amended: for a method other than "detrend" and "logdiff" the call
    raises nothing and returns None: no transformed sequence and no inverse
    are produced, [_detrend] is not called and the options are untouched. *)
Theorem make_stationary_unknown_method_returns_none
    lg ex d (x : array) (method : string) (kw : dict) :
  method ≠ "detrend" → method ≠ "logdiff" →
  returned (make_stationary lg ex d x method kw) = Ok None
  ∧ detrend_calls (make_stationary lg ex d x method kw) = []
  ∧ kwargs_after (make_stationary lg ex d x method kw) = kw.
Proof.
  intros H1 H2. rewrite make_stationary_other by assumption.
  repeat split.
Qed.

Lemma make_stationary_unknown_method_returns_none_witness :
  returned (make_stationary same_value same_value flat_detrend
              [Fin 1; Fin 2] "diff" ∅) = Ok None
  ∧ detrend_calls (make_stationary same_value same_value flat_detrend
                     [Fin 1; Fin 2] "diff" ∅) = []
  ∧ kwargs_after (make_stationary same_value same_value flat_detrend
                    [Fin 1; Fin 2] "diff" ∅) = ∅.
Proof.
  apply (make_stationary_unknown_method_returns_none
           same_value same_value flat_detrend [Fin 1; Fin 2] "diff" ∅);
    discriminate.
Defined.




(** ** forecast_bias *)

(** A zero denominator never gives a finite value. *)
Lemma bias_zero_denominator (n z : float) :
  iszero z = true → isfinite (fmul (fdiv n z) (Fin 100)) = false.
Proof. destruct z; try discriminate. intros _. destruct n; reflexivity. Qed.

(** numpy's mask-and-delete keeps exactly the retained pairs, first
    components for the one array and second components for the other. *)
Lemma np_delete_retained (a p : array) :
  length a = length p →
  np_delete a (zip_with orb (map isnan a) (map isnan p)) = (retained_pairs a p).*1
  ∧ np_delete p (zip_with orb (map isnan a) (map isnan p)) = (retained_pairs a p).*2.
Proof.
  unfold retained_pairs. revert p.
  induction a as [|u a IH]; intros [|v p] Hlen; try discriminate; [split; reflexivity|].
  injection Hlen as Hlen. destruct (IH p Hlen) as [IH1 IH2].
  cbn. destruct (isnan u || isnan v); cbn; [split; assumption|].
  split; f_equal; assumption.
Qed.



(** What [forecast_bias] computes once the two value arrays are at hand
    (lines 90-93). *)
Lemma forecast_bias_of_values gv red (actual pred : pyobj) (i : bool)
    (a p : array) :
  type_of actual = type_of pred →
  paired_values gv actual pred i = Ok (Arr1 a, Arr1 p) →
  length a = length p →
  forecast_bias gv red actual pred i
  = Ok (fmul (fdiv (fsub (np_sum red (retained_pairs a p).*1)
                         (np_sum red (retained_pairs a p).*2))
                   (np_sum red (retained_pairs a p).*1))
             (Fin 100)).
Proof.
  intros Hty Hpv Hlen. unfold forecast_bias, same_type.
  rewrite bool_decide_eq_true_2 by assumption. cbn [negb].
  rewrite Hpv. cbn -[fmul fdiv fsub Fin]. rewrite Hlen, Nat.eqb_refl.
  cbn -[fmul fdiv fsub Fin].
  destruct (np_delete_retained a p Hlen) as [-> ->]. reflexivity.
Qed.

Lemma paired_values_arrays gv (a p : ndarray) (i : bool) :
  paired_values gv (NdArray a) (NdArray p) i = Ok (a, p).
Proof. reflexivity. Qed.



(** The NaN example: of actual [1, NaN, 3] and predicted [1, 2, NaN] only
    the pair (1, 1) is retained, and the bias over it is zero. *)
Example forecast_bias_nan_pairs :
  retained_pairs [Fin 1; NaN; Fin 3] [Fin 1; Fin 2; NaN] = [(Fin 1, Fin 1)]
  ∧ forecast_bias no_series_values sum_left_to_right
      (NdArray (Arr1 [Fin 1; NaN; Fin 3])) (NdArray (Arr1 [Fin 1; Fin 2; NaN]))
      true
    = Ok (Fin 0).
Proof. split; reflexivity. Qed.

(** C9: when the retained actual values sum to zero, of either sign,
    [forecast_bias] raises nothing and returns a value that is not finite:
    an infinity or NaN. *)
Theorem forecast_bias_zero_sum gv red (actual pred : pyobj) (i : bool)
    (a p : array) :
  type_of actual = type_of pred →
  paired_values gv actual pred i = Ok (Arr1 a, Arr1 p) →
  length a = length p →
  iszero (np_sum red (retained_pairs a p).*1) = true →
  ∃ v, forecast_bias gv red actual pred i = Ok v ∧ isfinite v = false.
Proof.
  intros Hty Hpv Hlen Hzero.
  rewrite (forecast_bias_of_values gv red actual pred i a p) by assumption.
  eexists. split; [reflexivity|]. apply bias_zero_denominator. exact Hzero.
Qed.

Lemma forecast_bias_zero_sum_witness :
  ∃ v, forecast_bias no_series_values sum_left_to_right
         (NdArray (Arr1 [Fin 0])) (NdArray (Arr1 [Fin 1])) true = Ok v
       ∧ isfinite v = false.
Proof.
  apply (forecast_bias_zero_sum no_series_values sum_left_to_right
           (NdArray (Arr1 [Fin 0])) (NdArray (Arr1 [Fin 1])) true
           [Fin 0] [Fin 1]); reflexivity.
Defined.

(** On actual [0] and predicted [1] the result is minus infinity; on actual
    [2^53, 1, -2^53], whose float64 sum from left to right is zero, and
    predicted zeros, it is NaN. *)
Example forecast_bias_zero_actual :
  forecast_bias no_series_values sum_left_to_right
    (NdArray (Arr1 [Fin 0])) (NdArray (Arr1 [Fin 1])) true = Ok NInf
  ∧ forecast_bias no_series_values sum_left_to_right
      (NdArray (Arr1 [Fin 9007199254740992; Fin 1; Fin (-9007199254740992)]))
      (NdArray (Arr1 [Fin 0; Fin 0; Fin 0])) true = Ok NaN.
Proof. split; reflexivity. Qed.

(** C10: on numpy arrays the result does not depend on [intersect].  The
    flag is read only by [_get_values_or_raise], which arrays never reach,
    so the result is the same for either value of the flag and for any two
    ways of restricting series to a common time range.  This holds for
    arrays of any shape, equal lengths included. *)
Theorem forecast_bias_arrays_ignore_intersect gv gv' red (a p : ndarray)
    (i j : bool) :
  forecast_bias gv red (NdArray a) (NdArray p) i
  = forecast_bias gv' red (NdArray a) (NdArray p) j.
Proof.
  unfold forecast_bias. destruct (negb _); [reflexivity|].
  rewrite !paired_values_arrays. reflexivity.
Qed.

(** On series the flag is handed to [_get_values_or_raise] as it is. *)
Lemma forecast_bias_series_pass_intersect gv (actual pred : pyobj) (i : bool) :
  type_of actual = type_of pred → type_of actual ≠ np_ndarray →
  paired_values gv actual pred i = gv actual pred i.
Proof.
  intros _ Hty. unfold paired_values, isinstance.
  rewrite bool_decide_eq_false_2 by assumption. reflexivity.
Qed.

(** ** darts_metrics_adapter *)

(** Only a data frame with one column gets past line 118. *)
Lemma adapter_not_a_frame sq isdt fv fs mf (actual pred : pyobj)
    (insample : option pyobj) (m : option Z) (kw : metric_kwargs) :
  type_of actual ≠ pd_DataFrame →
  ∃ e, darts_metrics_adapter sq isdt fv fs mf actual pred insample m kw
       = Raise e
       ∧ kind_of e ≠ MissingDatetimeIndex.
Proof.
  intros Hty. unfold darts_metrics_adapter.
  destruct (negb (same_type actual pred)); [eexists; split; [reflexivity|discriminate]|].
  destruct (match insample with Some ins => _ | None => _ end);
    [eexists; split; [reflexivity|discriminate]|].
  cbv zeta. unfold isinstance.
  rewrite (bool_decide_eq_false_2 (type_of actual = pd_DataFrame)) by assumption.
  cbn [andb]. eexists; split; [reflexivity|discriminate].
Qed.

(** The branches of lines 129-132, had they been reached with two arrays:
    both are turned into positional series and forwarded. *)
Lemma adapter_after_squeeze_arrays isdt fv fs mf (a p : ndarray)
    (m : option Z) (kw : metric_kwargs) :
  String.eqb (__name__ mf) "mase" = false →
  adapter_after_squeeze isdt fv fs mf true false (NdArray a) (NdArray p)
    None m kw
  = (ta ← fv (NdArray a); tp ← fv (NdArray p);
     apply mf (call_plain ta tp kw)).
Proof.
  intros Hname. unfold adapter_after_squeeze. cbn. rewrite Hname.
  destruct (fv (NdArray a)); cbn; [|reflexivity].
  destruct (fv (NdArray p)); reflexivity.
Qed.

(** C1 fails on the code: two numpy arrays, and two pandas series, are
    rejected at line 118 with the data-frame message, whatever the metric;
    nothing is coerced and the metric is not called. *)
Theorem adapter_rejects_arrays_and_series sq isdt fv fs mf
    (m : option Z) (kw : metric_kwargs) :
  (∀ a p : ndarray,
     darts_metrics_adapter sq isdt fv fs mf (NdArray a) (NdArray p) None m kw
     = Raise (ValueError msg_dataframes))
  ∧ (∀ ia va ip vp,
     darts_metrics_adapter sq isdt fv fs mf (PdSeries ia va) (PdSeries ip vp)
       None m kw
     = Raise (ValueError msg_dataframes)).
Proof. split; reflexivity. Qed.

Example adapter_rejects_two_arrays :
  darts_metrics_adapter keep_shape datetime_only
    build_from_values build_from_series mae_stub
    (NdArray (Arr1 [Fin 1; Fin 2])) (NdArray (Arr1 [Fin 1; Fin 3]))
    None (Some 1%Z) default_kwargs
  = Raise (ValueError msg_dataframes).
Proof. reflexivity. Qed.

(** C3 fails on the code: a metric named "mase" called on series that all
    carry a datetime index does not succeed, and called on arrays it does
    not fail with the MASE message; both calls stop at line 118 with the
    data-frame message. *)
Theorem adapter_mase_stops_before_index_check sq isdt fv fs mf
    (ia ip ii : index) (va vp vi : array) (a p : ndarray)
    (m : option Z) (kw : metric_kwargs) :
  __name__ mf = "mase" →
  isdt ia = true → isdt ip = true → isdt ii = true →
  darts_metrics_adapter sq isdt fv fs mf
    (PdSeries ia va) (PdSeries ip vp) (Some (PdSeries ii vi)) m kw
  = Raise (ValueError msg_dataframes)
  ∧ darts_metrics_adapter sq isdt fv fs mf (NdArray a) (NdArray p) None m kw
    = Raise (ValueError msg_dataframes)
  ∧ kind_of (ValueError msg_dataframes) = UnsupportedShape.
Proof. intros _ _ _ _. repeat split. Qed.

Lemma adapter_mase_stops_before_index_check_witness :
  darts_metrics_adapter keep_shape datetime_only
    build_from_values build_from_series mase_stub
    (PdSeries (DatetimeIndex [1; 2; 3]%Z) [Fin 1; Fin 2; Fin 3])
    (PdSeries (DatetimeIndex [1; 2; 3]%Z) [Fin 1; Fin 2; Fin 4])
    (Some (PdSeries (DatetimeIndex [0]%Z) [Fin 1])) (Some 1%Z) default_kwargs
  = Raise (ValueError msg_dataframes)
  ∧ darts_metrics_adapter keep_shape datetime_only
      build_from_values build_from_series mase_stub
      (NdArray (Arr1 [Fin 1])) (NdArray (Arr1 [Fin 2])) None (Some 1%Z)
      default_kwargs
    = Raise (ValueError msg_dataframes)
  ∧ kind_of (ValueError msg_dataframes) = UnsupportedShape.
Proof.
  apply (adapter_mase_stops_before_index_check keep_shape datetime_only
           build_from_values build_from_series mase_stub); reflexivity.
Defined.

(** On the one path that gets past line 118, a one-column data frame whose
    squeezed form is a series, the index requirement is as the
    specification has it: without a datetime index on every input a metric
    named "mase" raises the MASE message, and with one the three
    time-indexed series are built, in the order actual, predicted,
    in-sample, and the metric is called on them together with [m]. *)
Lemma adapter_mase_on_frames sq isdt fv fs mf
    (fa fp fi : pyobj) (ia ip ii : index) (va vp vi : array)
    (m : option Z) (kw : metric_kwargs) :
  __name__ mf = "mase" →
  type_of fa = pd_DataFrame → type_of fp = pd_DataFrame →
  type_of fi = pd_DataFrame → shape1 fa = 1 →
  sq fa = PdSeries ia va → sq fp = PdSeries ip vp → sq fi = PdSeries ii vi →
  darts_metrics_adapter sq isdt fv fs mf fa fp (Some fi) m kw
  = if isdt ia && isdt ip && isdt ii then
      ta ← fs (PdSeries ia va);
      tp ← fs (PdSeries ip vp);
      ti ← fs (PdSeries ii vi);
      apply mf (call_seasonal ta tp (Some ti) m kw)
    else Raise (ValueError msg_mase).
Proof.
  intros Hname Ha Hp Hi Hcols Hsa Hsp Hsi.
  unfold darts_metrics_adapter, same_type, isinstance.
  rewrite Ha, Hp, Hi, Hcols. cbn.
  rewrite Hsa, Hsp, Hsi.
  unfold adapter_after_squeeze, datetime_index_check, coerce.
  cbn. rewrite Hname.
  destruct (isdt ia); cbn; [|reflexivity].
  destruct (isdt ip); cbn; [|reflexivity].
  destruct (isdt ii); cbn; [|reflexivity].
  destruct (fs (PdSeries ia va)); cbn; [|reflexivity].
  destruct (fs (PdSeries ip vp)); cbn; [|reflexivity].
  destruct (fs (PdSeries ii vi)); cbn; reflexivity.
Qed.

(** C7: when the classes of [actual] and [predicted] differ, the adapter
    and [forecast_bias] both stop at their first statement with the
    assertion on the argument classes, whatever the metric, the other
    arguments and the collaborators: none of them is consulted. *)
Theorem type_mismatch_rejected gv red sq isdt fv fs mf (actual pred : pyobj)
    (insample : option pyobj) (m : option Z) (kw : metric_kwargs) (i : bool) :
  type_of actual ≠ type_of pred →
  darts_metrics_adapter sq isdt fv fs mf actual pred insample m kw
  = Raise (AssertionError msg_same_type_pred)
  ∧ forecast_bias gv red actual pred i
    = Raise (AssertionError msg_same_type_pred)
  ∧ kind_of (AssertionError msg_same_type_pred) = TypeMismatch.
Proof.
  intros Hty. unfold darts_metrics_adapter, forecast_bias, same_type.
  rewrite bool_decide_eq_false_2 by assumption. repeat split.
Qed.

Lemma type_mismatch_rejected_witness :
  darts_metrics_adapter keep_shape datetime_only
    build_from_values build_from_series mae_stub
    (NdArray (Arr1 [Fin 1; Fin 2]))
    (PdSeries (DatetimeIndex [1; 2]%Z) [Fin 1; Fin 2])
    None (Some 1%Z) default_kwargs
  = Raise (AssertionError msg_same_type_pred)
  ∧ forecast_bias no_series_values sum_left_to_right
      (NdArray (Arr1 [Fin 1; Fin 2]))
      (PdSeries (DatetimeIndex [1; 2]%Z) [Fin 1; Fin 2]) true
    = Raise (AssertionError msg_same_type_pred)
  ∧ kind_of (AssertionError msg_same_type_pred) = TypeMismatch.
Proof.
  apply (type_mismatch_rejected no_series_values sum_left_to_right
           keep_shape datetime_only build_from_values build_from_series
           mae_stub); discriminate.
Defined.

(** * Further properties of the three functions *)

(** ** make_stationary, method "logdiff" *)

Lemma logdiff_lookup lg (x : array) (i : nat) (u v : float) :
  x !! i = Some u → x !! S i = Some v →
  np_log lg (zip_with fdiv (all_but_last x) (from_second x)) !! i
  = Some (flog lg (fdiv u v)).
Proof.
  intros Hu Hv. destruct (successor_lookup x i u v Hu Hv) as [Ha Hb].
  unfold np_log, array in *.
  rewrite lookup_map, lookup_zip_with, Ha. cbn. rewrite Hb. reflexivity.
Qed.

(** X1: "logdiff" works on every array, the empty and the one-entry array
    included: it raises nothing, returns [len(x) - 1] values (none for an
    input of fewer than two entries), does not call [_detrend] and leaves
    the options as they were. *)
Theorem make_stationary_logdiff_shape lg ex d (x : array) (kw : dict) :
  ∃ st inv,
    returned (make_stationary lg ex d x "logdiff" kw) = Ok (Some (st, inv))
    ∧ length st = length x - 1
    ∧ detrend_calls (make_stationary lg ex d x "logdiff" kw) = []
    ∧ kwargs_after (make_stationary lg ex d x "logdiff" kw) = kw.
Proof.
  rewrite make_stationary_logdiff. cbn [returned detrend_calls kwargs_after].
  eexists _, _. split; [reflexivity|]. split; [|split; reflexivity].
  apply length_logdiff.
Qed.

(** X2: entry [i] of the "logdiff" output is [np.log(x[i] / x[i+1])], the
    float64 quotient of a value by its successor handed to [np.log], for
    every position that has a successor. *)
Theorem make_stationary_logdiff_entries lg ex d (x : array) (kw : dict)
    (st : array) (inv : inverse_fn) (i : nat) (u v : float) :
  returned (make_stationary lg ex d x "logdiff" kw) = Ok (Some (st, inv)) →
  x !! i = Some u → x !! S i = Some v →
  st !! i = Some (flog lg (fdiv u v)).
Proof.
  intros Hret Hu Hv. rewrite make_stationary_logdiff in Hret.
  cbn [returned] in Hret. injection Hret as <- _.
  apply logdiff_lookup; assumption.
Qed.

Lemma make_stationary_logdiff_entries_witness :
  ∃ st inv,
    returned (make_stationary same_value same_value flat_detrend
                [Fin 2; Fin 4; Fin 8] "logdiff" ∅)
    = Ok (Some (st, inv))
    ∧ st !! 1 = Some (flog same_value (fdiv (Fin 4) (Fin 8))).
Proof.
  pose proof (f_equal returned
                (make_stationary_logdiff same_value same_value flat_detrend
                   [Fin 2; Fin 4; Fin 8] ∅))
    as Hret.
  cbn [returned] in Hret. eexists _, _. split; [exact Hret|].
  apply (make_stationary_logdiff_entries same_value same_value flat_detrend
           [Fin 2; Fin 4; Fin 8] ∅ _ _ 1 (Fin 4) (Fin 8) Hret); reflexivity.
Defined.

(** X4: a zero after a positive value does not make "logdiff" fail.  The
    quotient is an infinity of the sign of the zero, so the entry is +inf
    when the successor is +0.0 and NaN when it is -0.0. *)
Theorem make_stationary_logdiff_zero_successor lg ex d (x : array) (kw : dict)
    (st : array) (inv : inverse_fn) (i : nat)
    (m : positive) (e : Z) (s : bool) :
  returned (make_stationary lg ex d x "logdiff" kw) = Ok (Some (st, inv)) →
  x !! i = Some (S754_finite false m e) → x !! S i = Some (S754_zero s) →
  st !! i = Some (if s then NaN else PInf).
Proof.
  intros Hret Hu Hv. rewrite make_stationary_logdiff in Hret.
  cbn [returned] in Hret. injection Hret as <- _.
  rewrite (logdiff_lookup lg x i _ _ Hu Hv). destruct s; reflexivity.
Qed.

Lemma make_stationary_logdiff_zero_successor_witness :
  ∃ st inv,
    returned (make_stationary same_value same_value flat_detrend
                [Fin 3; Fin 0; S754_finite false 6755399441055744 (-51);
                 S754_zero true] "logdiff" ∅)
    = Ok (Some (st, inv))
    ∧ st !! 0 = Some PInf ∧ st !! 2 = Some NaN.
Proof.
  pose proof (f_equal returned
                (make_stationary_logdiff same_value same_value flat_detrend
                   [Fin 3; Fin 0; S754_finite false 6755399441055744 (-51);
                    S754_zero true] ∅))
    as Hret.
  cbn [returned] in Hret. eexists _, _. split; [exact Hret|]. split.
  - apply (make_stationary_logdiff_zero_successor same_value same_value
             flat_detrend _ ∅ _ _ 0 6755399441055744 (-51) false Hret);
      reflexivity.
  - apply (make_stationary_logdiff_zero_successor same_value same_value
             flat_detrend _ ∅ _ _ 2 6755399441055744 (-51) true Hret);
      reflexivity.
Defined.

(** X5: the "logdiff" inverse looks at [x] only from its second entry on.
    Two inputs that agree after their first entry have inverses that agree
    on every argument; and on any argument of the length of the transformed
    output the inverse raises nothing and returns as many values. *)
Theorem make_stationary_logdiff_inverse_tail lg ex d (x x' : array)
    (kw kw' : dict) (st st' : array) (inv inv' : inverse_fn) :
  returned (make_stationary lg ex d x "logdiff" kw) = Ok (Some (st, inv)) →
  returned (make_stationary lg ex d x' "logdiff" kw') = Ok (Some (st', inv')) →
  from_second x = from_second x' →
  (∀ f, inv f = inv' f)
  ∧ (∀ f, length f = length st → ∃ y, inv f = Ok y ∧ length y = length f).
Proof.
  intros Hret Hret' Htail. rewrite make_stationary_logdiff in Hret, Hret'.
  cbn [returned] in Hret, Hret'.
  injection Hret as <- <-. injection Hret' as _ <-. split.
  - intros f. unfold inverse_transform_logdiff. rewrite Htail. reflexivity.
  - intros f Hlen. rewrite length_logdiff in Hlen.
    rewrite inverse_logdiff_same_length by assumption.
    eexists. split; [reflexivity|].
    rewrite length_inverse_logdiff by assumption. lia.
Qed.

Lemma make_stationary_logdiff_inverse_tail_witness :
  ∃ st inv st' inv',
    returned (make_stationary same_value same_value flat_detrend
                [Fin 0; Fin 2; Fin 4] "logdiff" ∅) = Ok (Some (st, inv))
    ∧ returned (make_stationary same_value same_value flat_detrend
                  [Fin 7; Fin 2; Fin 4] "logdiff" ∅) = Ok (Some (st', inv'))
    ∧ (∀ f, inv f = inv' f)
    ∧ (∀ f, length f = length st → ∃ y, inv f = Ok y ∧ length y = length f).
Proof.
  pose proof (f_equal returned
                (make_stationary_logdiff same_value same_value flat_detrend
                   [Fin 0; Fin 2; Fin 4] ∅)) as Hret.
  pose proof (f_equal returned
                (make_stationary_logdiff same_value same_value flat_detrend
                   [Fin 7; Fin 2; Fin 4] ∅)) as Hret'.
  cbn [returned] in Hret, Hret'.
  eexists _, _, _, _. split; [exact Hret|]. split; [exact Hret'|].
  apply (make_stationary_logdiff_inverse_tail same_value same_value
           flat_detrend _ _ ∅ ∅ _ _ _ _ Hret Hret').
  reflexivity.
Defined.

(** ** make_stationary, method "detrend" *)

(** X6: a failing [_detrend] still leaves its mark.  When the detrending
    routine raises, [make_stationary] raises the same exception, and the
    caller's dictionary has been changed all the same: it holds
    [return_trend = True]. *)
Theorem make_stationary_detrend_failure lg ex d (x : array) (kw : dict)
    (e : exn) :
  d x (<["return_trend" := PyBool true]> kw) = Raise e →
  returned (make_stationary lg ex d x "detrend" kw) = Raise e
  ∧ kwargs_after (make_stationary lg ex d x "detrend" kw) !! "return_trend"
    = Some (PyBool true).
Proof.
  intros Hd. rewrite make_stationary_detrend.
  cbn [returned kwargs_after]. rewrite Hd.
  split; [reflexivity|]. apply lookup_insert_eq.
Qed.

Lemma make_stationary_detrend_failure_witness :
  returned (make_stationary same_value same_value
              (fun _ _ => Raise (Raised "lowess")) [Fin 1] "detrend" ∅)
  = Raise (Raised "lowess")
  ∧ kwargs_after (make_stationary same_value same_value
                    (fun _ _ => Raise (Raised "lowess")) [Fin 1]
                    "detrend" ∅) !! "return_trend"
    = Some (PyBool true).
Proof.
  apply (make_stationary_detrend_failure same_value same_value
           (fun _ _ => Raise (Raised "lowess")) [Fin 1] ∅ (Raised "lowess")).
  reflexivity.
Defined.

(** X7: calls that share one options dictionary, as all calls relying on
    the default argument do.  After a first "detrend" call the dictionary
    is stable: a later call, with whatever method and input, leaves it as
    the first call left it, and a later "detrend" call hands [_detrend] that
    same dictionary. *)
Theorem make_stationary_shared_kwargs lg ex d (x1 x2 : array) (method : string)
    (kw : dict) :
  let kw1 := kwargs_after (make_stationary lg ex d x1 "detrend" kw) in
  kwargs_after (make_stationary lg ex d x2 method kw1) = kw1
  ∧ detrend_calls (make_stationary lg ex d x2 "detrend" kw1) = [(x2, kw1)].
Proof.
  cbn zeta. rewrite (make_stationary_detrend lg ex d x1 kw).
  cbn [kwargs_after]. split.
  - unfold make_stationary.
    destruct (String.eqb method "detrend");
      [cbn [kwargs_after]; apply insert_insert_eq|].
    destruct (String.eqb method "logdiff"); reflexivity.
  - rewrite make_stationary_detrend. cbn [detrend_calls].
    rewrite insert_insert_eq. reflexivity.
Qed.

(** ** forecast_bias *)

Lemma retained_pairs_self (a : array) :
  (retained_pairs a a).*2 = (retained_pairs a a).*1.
Proof.
  unfold retained_pairs. induction a as [|u a IH]; [reflexivity|].
  cbn. destruct (isnan u); cbn; [assumption|]. f_equal. assumption.
Qed.

(** A finite float64 minus itself is +0.0. *)
Lemma fsub_self (s : bool) (m : positive) (e : Z) :
  fsub (S754_finite s m e) (S754_finite s m e) = S754_zero false.
Proof.
  unfold fsub, SFsub.
  match goal with
  | |- binary_normalize _ _ (?t - ?t)%Z _ _ = _ =>
      generalize t; intros z
  end.
  assert (Hz : (z - z)%Z = 0%Z) by lia.
  rewrite Hz. reflexivity.
Qed.

(** X8: a forecast equal to the actual values has bias zero, of either
    sign, whenever [np.sum] of the values that are not NaN is a finite
    float64 other than zero. *)
Theorem forecast_bias_perfect_forecast gv red (a : array) (i : bool)
    (s : bool) (m : positive) (e : Z) :
  np_sum red (retained_pairs a a).*1 = S754_finite s m e →
  ∃ z, forecast_bias gv red (NdArray (Arr1 a)) (NdArray (Arr1 a)) i = Ok z
       ∧ iszero z = true.
Proof.
  intros Hsum.
  rewrite (forecast_bias_of_values gv red _ _ i a a) by reflexivity.
  rewrite retained_pairs_self, Hsum, fsub_self.
  eexists. split; [reflexivity|]. reflexivity.
Qed.

Lemma forecast_bias_perfect_forecast_witness :
  ∃ z, forecast_bias no_series_values sum_left_to_right
         (NdArray (Arr1 [Fin 1; NaN; Fin 2]))
         (NdArray (Arr1 [Fin 1; NaN; Fin 2])) true = Ok z
       ∧ iszero z = true.
Proof.
  apply (forecast_bias_perfect_forecast no_series_values sum_left_to_right
           [Fin 1; NaN; Fin 2] true false 6755399441055744 (-51)).
  reflexivity.
Defined.

Lemma retained_pairs_all_nan (a p : array) :
  Forall2 (fun u v => isnan u || isnan v = true) a p →
  retained_pairs a p = [].
Proof.
  unfold retained_pairs. induction 1 as [|u v a p Huv _ IH]; [reflexivity|].
  cbn. rewrite Huv. cbn. assumption.
Qed.

(** X10: nothing left to compare.  When every position holds a NaN in one
    array or the other, and so also for two empty arrays, no pair is
    retained and [forecast_bias] returns NaN without raising. *)
Theorem forecast_bias_nothing_retained gv red (a p : array) (i : bool) :
  Forall2 (fun u v => isnan u || isnan v = true) a p →
  forecast_bias gv red (NdArray (Arr1 a)) (NdArray (Arr1 p)) i = Ok NaN.
Proof.
  intros Hnan.
  rewrite (forecast_bias_of_values gv red _ _ i a p)
    by (try reflexivity; eapply Forall2_length; eassumption).
  rewrite retained_pairs_all_nan by assumption. reflexivity.
Qed.

Lemma forecast_bias_nothing_retained_witness :
  forecast_bias no_series_values sum_left_to_right
    (NdArray (Arr1 [NaN; Fin 2])) (NdArray (Arr1 [Fin 1; NaN])) true = Ok NaN
  ∧ forecast_bias no_series_values sum_left_to_right (NdArray (Arr1 []))
      (NdArray (Arr1 [])) true = Ok NaN.
Proof.
  split.
  - apply (forecast_bias_nothing_retained no_series_values sum_left_to_right
             [NaN; Fin 2] [Fin 1; NaN] true).
    repeat constructor.
  - apply (forecast_bias_nothing_retained no_series_values sum_left_to_right
             [] [] true).
    constructor.
Defined.

Lemma retained_pairs_app (a1 a2 p1 p2 : array) :
  length a1 = length p1 →
  retained_pairs (a1 ++ a2)%list (p1 ++ p2)%list
  = (retained_pairs a1 p1 ++ retained_pairs a2 p2)%list.
Proof.
  intros Hlen. unfold retained_pairs, array in *.
  rewrite zip_with_app by assumption. apply List.filter_app.
Qed.

(** X11: a position with a NaN counts for nothing.  If either array holds
    NaN at a position, the result is the one obtained from the two arrays
    with that position taken out of both, whatever the other array holds
    there. *)
Theorem forecast_bias_nan_position gv red (a1 a2 p1 p2 : array) (u v : float)
    (i : bool) :
  length a1 = length p1 → length a2 = length p2 →
  isnan u || isnan v = true →
  forecast_bias gv red (NdArray (Arr1 (a1 ++ u :: a2)%list))
    (NdArray (Arr1 (p1 ++ v :: p2)%list)) i
  = forecast_bias gv red (NdArray (Arr1 (a1 ++ a2)%list))
      (NdArray (Arr1 (p1 ++ p2)%list)) i.
Proof.
  intros H1 H2 Hnan.
  rewrite (forecast_bias_of_values gv red _ _ i
             (a1 ++ u :: a2)%list (p1 ++ v :: p2)%list)
    by (try reflexivity; rewrite !length_app; cbn; lia).
  rewrite (forecast_bias_of_values gv red _ _ i (a1 ++ a2)%list (p1 ++ p2)%list)
    by (try reflexivity; rewrite !length_app; lia).
  rewrite !retained_pairs_app by assumption.
  replace (retained_pairs (u :: a2) (v :: p2)) with (retained_pairs a2 p2);
    [reflexivity|].
  unfold retained_pairs. cbn. rewrite Hnan. reflexivity.
Qed.

Lemma forecast_bias_nan_position_witness :
  forecast_bias no_series_values sum_left_to_right
    (NdArray (Arr1 [Fin 1; NaN; Fin 3]))
    (NdArray (Arr1 [Fin 1; Fin 2; Fin 4])) true
  = forecast_bias no_series_values sum_left_to_right
      (NdArray (Arr1 [Fin 1; Fin 3])) (NdArray (Arr1 [Fin 1; Fin 4])) true.
Proof.
  apply (forecast_bias_nan_position no_series_values sum_left_to_right
           [Fin 1] [Fin 3] [Fin 1] [Fin 4] NaN (Fin 2) true); reflexivity.
Defined.

(** ** darts_metrics_adapter *)

(** X13: the in-sample series is checked second.  When [actual] and
    [predicted] are of one class and [insample] is of another, the call
    fails with the assertion that names [insample], before anything else
    is looked at. *)
Theorem adapter_insample_mismatch sq isdt fv fs mf (actual pred ins : pyobj)
    (m : option Z) (kw : metric_kwargs) :
  type_of actual = type_of pred → type_of actual ≠ type_of ins →
  darts_metrics_adapter sq isdt fv fs mf actual pred (Some ins) m kw
  = Raise (AssertionError msg_same_type_insample).
Proof.
  intros Hp Hi. unfold darts_metrics_adapter, same_type.
  rewrite (bool_decide_eq_true_2 _ Hp), (bool_decide_eq_false_2 _ Hi).
  reflexivity.
Qed.

Lemma adapter_insample_mismatch_witness :
  darts_metrics_adapter squeeze_column datetime_only
    build_from_values build_from_series mase_stub
    (dated_frame [1; 2]%Z [Fin 1; Fin 2]) (dated_frame [1; 2]%Z [Fin 1; Fin 3])
    (Some (NdArray (Arr1 [Fin 1]))) (Some 1%Z) default_kwargs
  = Raise (AssertionError msg_same_type_insample).
Proof.
  apply (adapter_insample_mismatch squeeze_column datetime_only
           build_from_values build_from_series mase_stub);
    [reflexivity|discriminate].
Defined.

(** X14: the metric is reached through one door only.  Whenever the
    adapter returns a value, [actual] was a data frame of exactly one
    column, and [predicted] and [insample], if given, were data frames
    too. *)
Theorem adapter_success_needs_one_column_frame sq isdt fv fs mf
    (actual pred : pyobj) (insample : option pyobj)
    (m : option Z) (kw : metric_kwargs) (v : pyobj) :
  darts_metrics_adapter sq isdt fv fs mf actual pred insample m kw = Ok v →
  type_of actual = pd_DataFrame ∧ shape1 actual = 1
  ∧ type_of pred = pd_DataFrame
  ∧ ∀ ins, insample = Some ins → type_of ins = pd_DataFrame.
Proof.
  unfold darts_metrics_adapter, same_type, isinstance. cbv zeta.
  destruct (bool_decide (type_of actual = type_of pred)) eqn:Hp;
    cbn [negb]; [|discriminate].
  apply bool_decide_eq_true_1 in Hp.
  destruct insample as [ins|].
  - destruct (bool_decide (type_of actual = type_of ins)) eqn:Hi;
      cbn [negb]; [|discriminate].
    apply bool_decide_eq_true_1 in Hi.
    destruct (bool_decide (type_of actual = pd_DataFrame)) eqn:Hf;
      cbn [andb]; [|discriminate].
    apply bool_decide_eq_true_1 in Hf.
    destruct (Nat.eqb (shape1 actual) 1) eqn:Hc; [|discriminate].
    apply Nat.eqb_eq in Hc. intros _.
    repeat split; try congruence. all: intros ? [= <-]; congruence.
  - destruct (bool_decide (type_of actual = pd_DataFrame)) eqn:Hf;
      cbn [andb]; [|discriminate].
    apply bool_decide_eq_true_1 in Hf.
    destruct (Nat.eqb (shape1 actual) 1) eqn:Hc; [|discriminate].
    apply Nat.eqb_eq in Hc. intros _.
    repeat split; try congruence. all: discriminate.
Qed.

Lemma adapter_success_needs_one_column_frame_witness :
  type_of (dated_frame [1; 2]%Z [Fin 1; Fin 2]) = pd_DataFrame
  ∧ shape1 (dated_frame [1; 2]%Z [Fin 1; Fin 2]) = 1
  ∧ type_of (dated_frame [1; 2]%Z [Fin 1; Fin 3]) = pd_DataFrame
  ∧ ∀ ins, @None pyobj = Some ins → type_of ins = pd_DataFrame.
Proof.
  apply (adapter_success_needs_one_column_frame squeeze_column datetime_only
           build_from_values build_from_series
           mae_stub _ _ None (Some 1%Z) default_kwargs
           (TimeSeries_from_series (PdSeries (DatetimeIndex [1; 2]%Z)
                                      [Fin 1; Fin 2]))).
  reflexivity.
Defined.

(** X15: a frame with no column, or with several, is turned away with the
    data-frame message, for every metric, once the classes agree. *)
Theorem adapter_rejects_wide_frames sq isdt fv fs mf (actual pred : pyobj)
    (m : option Z) (kw : metric_kwargs) :
  type_of actual = type_of pred → shape1 actual ≠ 1 →
  darts_metrics_adapter sq isdt fv fs mf actual pred None m kw
  = Raise (ValueError msg_dataframes)
  ∧ kind_of (ValueError msg_dataframes) = UnsupportedShape.
Proof.
  intros Hp Hc. unfold darts_metrics_adapter, same_type.
  rewrite (bool_decide_eq_true_2 _ Hp). cbv zeta. cbn [negb].
  apply Nat.eqb_neq in Hc. rewrite Hc, andb_false_r. split; reflexivity.
Qed.

Lemma adapter_rejects_wide_frames_witness :
  darts_metrics_adapter squeeze_column datetime_only
    build_from_values build_from_series mae_stub
    (PdDataFrame (DatetimeIndex [1; 2]%Z) ["y"; "z"]
       [[Fin 1; Fin 2]; [Fin 3; Fin 4]])
    (PdDataFrame (DatetimeIndex [1; 2]%Z) ["y"; "z"]
       [[Fin 1; Fin 2]; [Fin 3; Fin 5]])
    None (Some 1%Z) default_kwargs
  = Raise (ValueError msg_dataframes)
  ∧ kind_of (ValueError msg_dataframes) = UnsupportedShape.
Proof.
  apply (adapter_rejects_wide_frames squeeze_column datetime_only
           build_from_values build_from_series mae_stub);
    [reflexivity|discriminate].
Defined.

(** X16: a metric named "mase" on one-column frames that squeeze to
    series.  If an input lacks a datetime index the call fails with the
    MASE message and nothing is built.  Otherwise
    [TimeSeries.from_series] is applied to actual, predicted and in-sample
    series in that order; the first of these calls that raises ends the
    adapter with its exception, and if none does the metric is called on
    the three results together with [m].  The adapter does not require
    [insample]: without one the metric is called with [insample=None]. *)
Theorem adapter_mase_forwarding sq isdt fv fs mf
    (fa fp fi : pyobj) (ia ip ii : index) (va vp vi : array)
    (m : option Z) (kw : metric_kwargs) :
  __name__ mf = "mase" →
  type_of fa = pd_DataFrame → type_of fp = pd_DataFrame →
  type_of fi = pd_DataFrame → shape1 fa = 1 →
  sq fa = PdSeries ia va → sq fp = PdSeries ip vp → sq fi = PdSeries ii vi →
  darts_metrics_adapter sq isdt fv fs mf fa fp (Some fi) m kw
  = (if isdt ia && isdt ip && isdt ii then
       ta ← fs (PdSeries ia va);
       tp ← fs (PdSeries ip vp);
       ti ← fs (PdSeries ii vi);
       apply mf (call_seasonal ta tp (Some ti) m kw)
     else Raise (ValueError msg_mase))
  ∧ darts_metrics_adapter sq isdt fv fs mf fa fp None m kw
    = (if isdt ia && isdt ip then
         ta ← fs (PdSeries ia va);
         tp ← fs (PdSeries ip vp);
         apply mf (call_seasonal ta tp None m kw)
       else Raise (ValueError msg_mase)).
Proof.
  intros Hname Ha Hp Hi Hcols Hsa Hsp Hsi. split.
  - apply adapter_mase_on_frames; assumption.
  - unfold darts_metrics_adapter, same_type, isinstance.
    rewrite Ha, Hp, Hcols. cbn.
    rewrite Hsa, Hsp.
    unfold adapter_after_squeeze, datetime_index_check, coerce.
    cbn. rewrite Hname.
    destruct (isdt ia); cbn; [|reflexivity].
    destruct (isdt ip); cbn; [|reflexivity].
    destruct (fs (PdSeries ia va)); cbn; [|reflexivity].
    destruct (fs (PdSeries ip vp)); cbn; reflexivity.
Qed.

Lemma adapter_mase_forwarding_witness :
  darts_metrics_adapter squeeze_column datetime_only
    build_from_values build_from_series mase_stub
    (dated_frame [3; 4]%Z [Fin 1; Fin 2]) (dated_frame [3; 4]%Z [Fin 1; Fin 3])
    (Some (dated_frame [1; 2]%Z [Fin 5; Fin 6])) (Some 7%Z) default_kwargs
  = apply mase_stub
      (call_seasonal
         (TimeSeries_from_series (PdSeries (DatetimeIndex [3; 4]%Z) [Fin 1; Fin 2]))
         (TimeSeries_from_series (PdSeries (DatetimeIndex [3; 4]%Z) [Fin 1; Fin 3]))
         (Some (TimeSeries_from_series
                  (PdSeries (DatetimeIndex [1; 2]%Z) [Fin 5; Fin 6])))
         (Some 7%Z) default_kwargs)
  ∧ darts_metrics_adapter squeeze_column datetime_only
      build_from_values build_from_series mase_stub
      (dated_frame [3; 4]%Z [Fin 1; Fin 2]) (dated_frame [3; 4]%Z [Fin 1; Fin 3])
      None (Some 7%Z) default_kwargs
    = apply mase_stub
        (call_seasonal
           (TimeSeries_from_series (PdSeries (DatetimeIndex [3; 4]%Z) [Fin 1; Fin 2]))
           (TimeSeries_from_series (PdSeries (DatetimeIndex [3; 4]%Z) [Fin 1; Fin 3]))
           None (Some 7%Z) default_kwargs).
Proof.
  apply (adapter_mase_forwarding squeeze_column datetime_only
           build_from_values build_from_series mase_stub
           (dated_frame [3; 4]%Z [Fin 1; Fin 2])
           (dated_frame [3; 4]%Z [Fin 1; Fin 3])
           (dated_frame [1; 2]%Z [Fin 5; Fin 6])
           (DatetimeIndex [3; 4]%Z) (DatetimeIndex [3; 4]%Z)
           (DatetimeIndex [1; 2]%Z)
           [Fin 1; Fin 2] [Fin 1; Fin 3] [Fin 5; Fin 6]); reflexivity.
Defined.

(** A constructor that refuses the series ends the call before the metric
    is reached. *)
Example adapter_mase_constructor_failure :
  darts_metrics_adapter squeeze_column datetime_only
    build_from_values refuse_series mase_stub
    (dated_frame [3; 4; 9]%Z [Fin 1; Fin 2; Fin 3])
    (dated_frame [3; 4; 9]%Z [Fin 1; Fin 3; Fin 4])
    None (Some 1%Z) default_kwargs
  = Raise (ValueError "Could not correctly fill missing dates").
Proof. reflexivity. Qed.

(** X17: a metric not named "mase", on one-column frames that squeeze to
    series.  When actual, predicted and in-sample series all carry a
    datetime index, [TimeSeries.from_series] is applied to the three in
    that order; otherwise [TimeSeries.from_values] is applied to their bare
    values in that order, so that one input without a datetime index, the
    in-sample one included, takes the timestamps away from all.  The first
    constructor call that raises ends the adapter with its exception.  If
    none does, the metric is called on the first two results only, without
    [insample] and without [m], whatever they are. *)
Theorem adapter_plain_on_frames sq isdt fv fs mf
    (fa fp fi : pyobj) (ia ip ii : index) (va vp vi : array)
    (m : option Z) (kw : metric_kwargs) :
  __name__ mf ≠ "mase" →
  type_of fa = pd_DataFrame → type_of fp = pd_DataFrame →
  type_of fi = pd_DataFrame → shape1 fa = 1 →
  sq fa = PdSeries ia va → sq fp = PdSeries ip vp → sq fi = PdSeries ii vi →
  darts_metrics_adapter sq isdt fv fs mf fa fp (Some fi) m kw
  = if isdt ia && isdt ip && isdt ii then
      ta ← fs (PdSeries ia va);
      tp ← fs (PdSeries ip vp);
      _ ← fs (PdSeries ii vi);
      apply mf (call_plain ta tp kw)
    else
      ta ← fv (NdArray (Arr1 va));
      tp ← fv (NdArray (Arr1 vp));
      _ ← fv (NdArray (Arr1 vi));
      apply mf (call_plain ta tp kw).
Proof.
  intros Hname Ha Hp Hi Hcols Hsa Hsp Hsi.
  apply String.eqb_neq in Hname.
  unfold darts_metrics_adapter, same_type, isinstance.
  rewrite Ha, Hp, Hi, Hcols. cbn.
  rewrite Hsa, Hsp, Hsi.
  unfold adapter_after_squeeze, datetime_index_check, coerce, positional.
  cbn. rewrite Hname.
  assert (Hplain :
    (ta ← fv (NdArray (Arr1 va)); tp ← fv (NdArray (Arr1 vp));
     _ ← fv (NdArray (Arr1 vi)); apply mf (call_plain ta tp kw))
    = (fv (NdArray (Arr1 va)) ≫= λ ta,
       fv (NdArray (Arr1 vp)) ≫= λ tp,
       fv (NdArray (Arr1 vi)) ≫= λ ti, Ok (ta, tp, Some ti))
      ≫= λ '(a, p, _), apply mf (call_plain a p kw)).
  { destruct (fv (NdArray (Arr1 va))); cbn; [|reflexivity].
    destruct (fv (NdArray (Arr1 vp))); cbn; [|reflexivity].
    destruct (fv (NdArray (Arr1 vi))); cbn; reflexivity. }
  destruct (isdt ia); cbn; [|symmetry; exact Hplain].
  destruct (isdt ip); cbn; [|symmetry; exact Hplain].
  destruct (isdt ii); cbn; [|symmetry; exact Hplain].
  destruct (fs (PdSeries ia va)); cbn; [|reflexivity].
  destruct (fs (PdSeries ip vp)); cbn; [|reflexivity].
  destruct (fs (PdSeries ii vi)); cbn; reflexivity.
Qed.

Lemma adapter_plain_on_frames_witness :
  darts_metrics_adapter squeeze_column datetime_only
    build_from_values build_from_series mae_stub
    (dated_frame [3; 4]%Z [Fin 1; Fin 2]) (dated_frame [3; 4]%Z [Fin 1; Fin 3])
    (Some (numbered_frame [Fin 5; Fin 6])) (Some 7%Z) default_kwargs
  = apply mae_stub
      (call_plain (TimeSeries_from_values (NdArray (Arr1 [Fin 1; Fin 2])))
         (TimeSeries_from_values (NdArray (Arr1 [Fin 1; Fin 3])))
         default_kwargs).
Proof.
  apply (adapter_plain_on_frames squeeze_column datetime_only
           build_from_values build_from_series mae_stub
           (dated_frame [3; 4]%Z [Fin 1; Fin 2])
           (dated_frame [3; 4]%Z [Fin 1; Fin 3])
           (numbered_frame [Fin 5; Fin 6])
           (DatetimeIndex [3; 4]%Z) (DatetimeIndex [3; 4]%Z) (RangeIndex 2)
           [Fin 1; Fin 2] [Fin 1; Fin 3] [Fin 5; Fin 6]);
    try reflexivity.
  discriminate.
Defined.

Lemma get_index_error (o : pyobj) (e : exn) :
  get_index o = Raise e → ∃ s, e = AttributeError s.
Proof. destruct o; cbn; intros [= <-]; eauto. Qed.

Lemma get_values_error (o : pyobj) (e : exn) :
  get_values o = Raise e → ∃ s, e = AttributeError s.
Proof. destruct o; cbn; intros [= <-]; eauto. Qed.

Lemma has_datetime_index_error isdt (o : pyobj) (e : exn) :
  has_datetime_index isdt o = Raise e → ∃ s, e = AttributeError s.
Proof.
  unfold has_datetime_index. destruct (get_index o) eqn:H; cbn; [discriminate|].
  intros [= <-]. eapply get_index_error. eassumption.
Qed.

Lemma py_and_error isdt (a : bool) (o : pyobj) (e : exn) :
  py_and a (has_datetime_index isdt o) = Raise e → ∃ s, e = AttributeError s.
Proof.
  destruct a; cbn; [apply has_datetime_index_error|discriminate].
Qed.

Lemma datetime_index_check_error isdt (b : bool) (a p : pyobj)
    (ins : option pyobj) (e : exn) :
  datetime_index_check isdt b a p ins = Raise e → ∃ s, e = AttributeError s.
Proof.
  unfold datetime_index_check. destruct b; [|discriminate].
  destruct (has_datetime_index isdt a) as [d|e1] eqn:H1; cbn;
    [|intros [= <-]; eapply has_datetime_index_error; eassumption].
  destruct (py_and d (has_datetime_index isdt p)) as [d2|e2] eqn:H2; cbn;
    [|intros [= <-]; eapply py_and_error; eassumption].
  destruct ins as [ins|]; [apply py_and_error|discriminate].
Qed.

(** What building a series can raise: a missing attribute, or what the
    darts constructor raises. *)
Definition from_library (fv fs : pyobj → result pyobj) (e : exn) : Prop :=
  (∃ s, e = AttributeError s) ∨ (∃ o, fv o = Raise e) ∨ (∃ o, fs o = Raise e).

Lemma positional_error fv fs (o : pyobj) (e : exn) :
  positional fv true o = Raise e → from_library fv fs e.
Proof.
  unfold positional, from_library.
  destruct (get_values o) as [v|e1] eqn:Hv; cbn.
  - intros H. right. left. eauto.
  - intros [= <-]. left. eapply get_values_error. eassumption.
Qed.

Lemma coerce_series_error fv fs (nd d : bool) (a p : pyobj)
    (ins : option pyobj) (e : exn) :
  coerce fv fs nd true d a p ins = Raise e → from_library fv fs e.
Proof.
  unfold coerce.
  destruct (nd || true && negb d) eqn:Hb.
  - destruct (positional fv true a) eqn:Ha; cbn -[positional];
      [|intros [= <-]; eapply positional_error; eassumption].
    destruct (positional fv true p) eqn:Hp; cbn -[positional];
      [|intros [= <-]; eapply positional_error; eassumption].
    destruct ins as [ins|]; [|discriminate].
    destruct (positional fv true ins) eqn:Hi; cbn -[positional]; [discriminate|].
    intros [= <-]; eapply positional_error; eassumption.
  - destruct d; [|rewrite orb_true_r in Hb; discriminate].
    cbn [andb]. unfold from_library.
    destruct (fs a) eqn:Ha; cbn -[positional]; [|intros [= <-]; eauto].
    destruct (fs p) eqn:Hp; cbn -[positional]; [|intros [= <-]; eauto].
    destruct ins as [ins|]; [|discriminate].
    destruct (fs ins) eqn:Hi; cbn -[positional]; [discriminate|].
    intros [= <-]; eauto.
Qed.

(** X18: the ways the adapter can fail.  An exception leaving the adapter
    is one of the two class assertions, the data-frame message, the MASE
    message, an attribute missing on what [squeeze] returned, an exception
    of [TimeSeries.from_values] or [TimeSeries.from_series], or an
    exception of the metric function.  The bare [ValueError] of line 139 is
    not the adapter's own: if it leaves the adapter, a darts constructor or
    the metric raised it, since that branch cannot be reached. *)
Theorem adapter_failures sq isdt fv fs mf (actual pred : pyobj)
    (insample : option pyobj) (m : option Z) (kw : metric_kwargs) (e : exn) :
  darts_metrics_adapter sq isdt fv fs mf actual pred insample m kw = Raise e →
  (e = AssertionError msg_same_type_pred
   ∨ e = AssertionError msg_same_type_insample
   ∨ e = ValueError msg_dataframes
   ∨ e = ValueError msg_mase
   ∨ from_library fv fs e
   ∨ (∃ c, apply mf c = Raise e))
  ∧ (kind_of e = NormalizationError →
     (∃ o, fv o = Raise e) ∨ (∃ o, fs o = Raise e)
     ∨ (∃ c, apply mf c = Raise e)).
Proof.
  intros H.
  assert (Hcat : e = AssertionError msg_same_type_pred
                 ∨ e = AssertionError msg_same_type_insample
                 ∨ e = ValueError msg_dataframes
                 ∨ e = ValueError msg_mase
                 ∨ from_library fv fs e
                 ∨ (∃ c, apply mf c = Raise e)).
  { revert H. unfold darts_metrics_adapter. cbv zeta.
    destruct (negb (same_type actual pred)); [intros [= <-]; tauto|].
    destruct (match insample with Some ins => _ | None => _ end);
      [intros [= <-]; tauto|].
    destruct (isinstance actual pd_DataFrame && Nat.eqb (shape1 actual) 1);
      [|intros [= <-]; tauto].
    unfold adapter_after_squeeze.
    destruct (datetime_index_check isdt true (sq actual) (sq pred)
                (sq <$> insample)) as [d|e1] eqn:Hd; cbn;
      [|intros [= <-]; apply datetime_index_check_error in Hd;
        unfold from_library; tauto].
    destruct (String.eqb (__name__ mf) "mase" && negb d);
      [intros [= <-]; tauto|].
    destruct (coerce fv fs _ true d (sq actual) (sq pred) (sq <$> insample))
      as [[[a p] ins]|e1] eqn:Hc; cbn;
      [|intros [= <-]; apply coerce_series_error in Hc; tauto].
    destruct (String.eqb (__name__ mf) "mase"); intros H;
      do 5 right; eexists; exact H. }
  split; [exact Hcat|].
  intros Hkind.
  destruct Hcat as [-> | [-> | [-> | [-> | [Hlib | Hmf]]]]];
    try discriminate Hkind.
  - destruct Hlib as [[s ->] | [Hfv | Hfs]]; [discriminate Hkind|tauto|tauto].
  - tauto.
Qed.

Lemma adapter_failures_witness :
  (ValueError "" = AssertionError msg_same_type_pred
   ∨ ValueError "" = AssertionError msg_same_type_insample
   ∨ ValueError "" = ValueError msg_dataframes
   ∨ ValueError "" = ValueError msg_mase
   ∨ from_library build_from_values (fun _ => Raise (ValueError ""))
       (ValueError "")
   ∨ (∃ c, apply mae_stub c = Raise (ValueError "")))
  ∧ (kind_of (ValueError "") = NormalizationError →
     (∃ o, build_from_values o = Raise (ValueError ""))
     ∨ (∃ o, (fun _ : pyobj => @Raise pyobj (ValueError "")) o
             = Raise (ValueError ""))
     ∨ (∃ c, apply mae_stub c = Raise (ValueError ""))).
Proof.
  apply (adapter_failures squeeze_column datetime_only
           build_from_values (fun _ => Raise (ValueError "")) mae_stub
           (dated_frame [1; 2]%Z [Fin 1; Fin 2])
           (dated_frame [1; 2]%Z [Fin 1; Fin 3])
           None (Some 1%Z) default_kwargs (ValueError "")).
  reflexivity.
Defined.

(** X19: a one-column frame that squeezes to an object without an index.
    pandas squeezes a frame of a single cell to a scalar; the adapter then
    fails at line 120 with an [AttributeError] on [index], for every
    metric. *)
Theorem adapter_scalar_after_squeeze sq isdt fv fs mf (fa fp : pyobj)
    (v : float) (insample : option pyobj) (m : option Z)
    (kw : metric_kwargs) :
  type_of fa = pd_DataFrame → type_of fp = pd_DataFrame →
  (∀ ins, insample = Some ins → type_of ins = pd_DataFrame) →
  shape1 fa = 1 → sq fa = PyScalar v →
  darts_metrics_adapter sq isdt fv fs mf fa fp insample m kw
  = Raise (AttributeError "index").
Proof.
  intros Ha Hp Hi Hcols Hsa.
  unfold darts_metrics_adapter, same_type, isinstance.
  rewrite Ha, Hp, Hcols. cbn.
  assert (Hins : match insample with
                 | Some ins => negb (bool_decide (pd_DataFrame = type_of ins))
                 | None => false
                 end = false).
  { destruct insample as [ins|]; [|reflexivity].
    rewrite (Hi ins eq_refl). reflexivity. }
  rewrite Hins. unfold adapter_after_squeeze, datetime_index_check.
  rewrite Hsa. reflexivity.
Qed.

Lemma adapter_scalar_after_squeeze_witness :
  darts_metrics_adapter squeeze_column datetime_only
    build_from_values build_from_series mae_stub
    (dated_frame [1]%Z [Fin 1]) (dated_frame [1]%Z [Fin 2])
    None (Some 1%Z) default_kwargs
  = Raise (AttributeError "index").
Proof.
  apply (adapter_scalar_after_squeeze squeeze_column datetime_only
           build_from_values build_from_series mae_stub
           (dated_frame [1]%Z [Fin 1]) (dated_frame [1]%Z [Fin 2]) (Fin 1));
    try reflexivity.
  discriminate.
Defined.
